(** * Verification scripts of CyberTip-triage

    A shallow embedding of the two browser-automation scripts

      - [verify_demo.py]                      (module [Demo])
      - [verification/verify_dashboard.py]    (module [Dashboard])

    Both scripts are straight-line sequences of calls into Playwright and
    the [os] module, with Python's exception propagation, one bare
    [try/except], one [try/finally] and the [with] statement.  They are
    embedded in a state-and-exception monad over a [world] that records the
    working directory, the directories and files the script can see, the
    lines printed, and the trace of calls made to the outside.  What each
    outside call answers (returns or raises) is not decided by the scripts:
    it is given by a [library] record the scripts are parameterised by. *)

From Stdlib Require Import String Ascii List ZArith Bool Lia.
Import ListNotations.
Open Scope string_scope.

(** ** Exceptions and results *)

(** The exception instances the collaborators and the scripts can raise. *)
Inductive exn : Type :=
| PlaywrightError (msg : string)        (* playwright.sync_api.Error *)
| PlaywrightTimeoutError (msg : string) (* playwright.sync_api.TimeoutError *)
| TypeError (msg : string)
| OSError (msg : string).

Inductive result (A : Type) : Type :=
| Ok (a : A)
| Raise (e : exn).
Arguments Ok {A} a.
Arguments Raise {A} e.

(** ** The world a script runs in *)

(** Calls that leave the script, in the order they are made. *)
Inductive call : Type :=
| SyncPlaywrightEnter
| SyncPlaywrightExit
| Launch (headless : option bool)
| NewPage
| Goto (url : string)
| WaitForSelector (selector : string) (timeout : Z)
| GetAttribute (selector name : string)
| Screenshot (path : string)
| Close
| Makedirs (name : string).

Record world : Type := mkWorld {
  cwd : string;            (* os.getcwd() *)
  dirs : list string;      (* directories that exist, relative to cwd *)
  files : list string;     (* files that exist, relative to cwd *)
  stdout : list string;    (* lines printed, oldest first *)
  calls : list call        (* outside calls, oldest first *)
}.

(** A freshly started process: nothing printed, nothing called yet. *)
Definition boot (wd : string) (ds fs : list string) : world :=
  mkWorld wd ds fs [] [].

Definition log (c : call) (w : world) : world :=
  mkWorld (cwd w) (dirs w) (files w) (stdout w) (calls w ++ [c]).

Definition emit (line : string) (w : world) : world :=
  mkWorld (cwd w) (dirs w) (files w) (stdout w ++ [line]) (calls w).

Definition add_dir (d : string) (w : world) : world :=
  mkWorld (cwd w) (d :: dirs w) (files w) (stdout w) (calls w).

Definition add_file (f : string) (w : world) : world :=
  mkWorld (cwd w) (dirs w) (f :: files w) (stdout w) (calls w).

Definition mem (s : string) (l : list string) : bool :=
  existsb (String.eqb s) l.

(** ** Paths and substrings *)

(** [needle] is found at the very start of [hay]. *)
Fixpoint starts_with (needle hay : string) : bool :=
  match needle, hay with
  | EmptyString, _ => true
  | String a n, String b h => Ascii.eqb a b && starts_with n h
  | String _ _, EmptyString => false
  end.

(** Python's [needle in hay] on two [str]: some position of [hay] starts
    with [needle]. *)
Fixpoint contains (needle hay : string) : bool :=
  starts_with needle hay ||
  match hay with
  | EmptyString => false
  | String _ h => contains needle h
  end.

(** The text of a path before its last "/" (empty when there is none). *)
Fixpoint dirname (path : string) : string :=
  match path with
  | EmptyString => EmptyString
  | String c rest =>
      if contains "/" rest then String c (dirname rest) else EmptyString
  end.

(** The directory [d] exists afterwards: an existing one is left alone,
    the empty name stands for the working directory itself. *)
Definition ensure_dir (d : string) (w : world) : world :=
  mkWorld (cwd w)
          (if (d =? "") || mem d (dirs w) then dirs w else d :: dirs w)
          (files w) (stdout w) (calls w).

(** ** The monad of scripts *)

Definition M (A : Type) : Type := world -> world * result A.

Definition ret {A} (a : A) : M A := fun w => (w, Ok a).

Definition raise {A} (e : exn) : M A := fun w => (w, Raise e).

Definition bind {A B} (m : M A) (k : A -> M B) : M B :=
  fun w =>
    match m w with
    | (w1, Ok a) => k a w1
    | (w1, Raise e) => (w1, Raise e)
    end.

Declare Scope script_scope.
Delimit Scope script_scope with script.
Notation "x <- c1 ;; c2" := (bind c1 (fun x => c2))
  (at level 61, c1 at next level, right associativity) : script_scope.
Notation "c1 ;; c2" := (bind c1 (fun _ => c2))
  (at level 61, right associativity) : script_scope.
Open Scope script_scope.

(** [try: body except: handler] with a bare [except]: whatever [body]
    raises is handed to the handler. *)
Definition try_except {A} (body : M A) (handler : exn -> M A) : M A :=
  fun w =>
    match body w with
    | (w1, Ok a) => (w1, Ok a)
    | (w1, Raise e) => handler e w1
    end.

(** [try: body finally: cleanup]: the cleanup runs on both exits; the
    outcome of the body stands unless the cleanup itself raises. *)
Definition try_finally {A} (body : M A) (cleanup : M unit) : M A :=
  fun w =>
    let (w1, r) := body w in
    match cleanup w1 with
    | (w2, Ok _) => (w2, r)
    | (w2, Raise e) => (w2, Raise e)
    end.

(** [with enter as x: body], for a context manager whose [__exit__]
    returns a false value (exceptions of the body are not suppressed). *)
Definition with_ {A B} (enter : M A) (exit : M unit) (body : A -> M B) : M B :=
  x <- enter ;; try_finally (body x) exit.

Definition print (line : string) : M unit := fun w => (emit line w, Ok tt).

Definition getcwd : M string := fun w => (w, Ok (cwd w)).

(** [os.makedirs(name, exist_ok=True)] for a one-component relative name:
    an existing directory is accepted, an existing file of that name is a
    [FileExistsError]. *)
Definition makedirs (name : string) : M unit :=
  fun w =>
    let w1 := log (Makedirs name) w in
    if mem name (files w1) then (w1, Raise (OSError "File exists"))
    else if mem name (dirs w1) then (w1, Ok tt)
    else (add_dir name w1, Ok tt).

(** ** The browser-automation library *)

(** What each Playwright call answers: [None] is a normal return,
    [Some e] raises [e].  The scripts never look inside. *)
Record library : Type := mkLibrary {
  enter_outcome : option exn;                          (* sync_playwright().__enter__ *)
  exit_outcome : option exn;                           (* sync_playwright().__exit__ *)
  launch_outcome : option bool -> option exn;          (* p.chromium.launch(headless=..) *)
  new_page_outcome : option exn;                       (* browser.new_page() *)
  goto_outcome : string -> option exn;                 (* page.goto(url) *)
  wait_for_selector_outcome : string -> Z -> option exn;
  get_attribute_outcome : string -> string -> result (option string);
  screenshot_outcome : string -> list string -> option exn;
                                                       (* page.screenshot(path=..), given
                                                          the directories that exist *)
  close_outcome : option exn                           (* browser.close() *)
}.

Inductive playwright : Type := Playwright.
Inductive browser : Type := Browser.
Inductive page : Type := Page.

Section Calls.

Variable lib : library.

Definition answer {A} (c : call) (o : option exn) (a : A) : M A :=
  fun w =>
    match o with
    | None => (log c w, Ok a)
    | Some e => (log c w, Raise e)
    end.

Definition sync_playwright_enter : M playwright :=
  answer SyncPlaywrightEnter (enter_outcome lib) Playwright.

Definition sync_playwright_exit : M unit :=
  answer SyncPlaywrightExit (exit_outcome lib) tt.

Definition launch (p : playwright) (headless : option bool) : M browser :=
  answer (Launch headless) (launch_outcome lib headless) Browser.

Definition new_page (b : browser) : M page :=
  answer NewPage (new_page_outcome lib) Page.

Definition goto (pg : page) (url : string) : M unit :=
  answer (Goto url) (goto_outcome lib url) tt.

Definition wait_for_selector (pg : page) (selector : string) (timeout : Z) : M unit :=
  answer (WaitForSelector selector timeout)
         (wait_for_selector_outcome lib selector timeout) tt.

(** [page.locator(selector).get_attribute(name)]: a string, [None] when
    the element has no such attribute, or an exception. *)
Definition get_attribute (pg : page) (selector name : string) : M (option string) :=
  fun w =>
    (log (GetAttribute selector name) w, get_attribute_outcome lib selector name).

(** [page.screenshot(path=..)]: the library first makes sure that the
    containing directory of [path] exists (its own
    [os.makedirs(dirname, exist_ok=True)]), then writes the file.  When the
    call returns, the directory and the file are there. *)
Definition screenshot (pg : page) (path : string) : M unit :=
  fun w =>
    let w1 := log (Screenshot path) w in
    match screenshot_outcome lib path (dirs w1) with
    | None => (add_file path (ensure_dir (dirname path) w1), Ok tt)
    | Some e => (w1, Raise e)
    end.

Definition close (b : browser) : M unit :=
  answer Close (close_outcome lib) tt.

End Calls.

(** ** Values as the scripts use them *)

(** Python's [needle in value] where [value] may be [None]: the operator
    raises [TypeError] on [None]. *)
Definition py_in (needle : string) (value : option string) : M bool :=
  match value with
  | Some s => ret (contains needle s)
  | None => raise (TypeError "argument of type 'NoneType' is not iterable")
  end.

(** How an f-string renders an optional string. *)
Definition fmt (value : option string) : string :=
  match value with
  | Some s => s
  | None => "None"
  end.

(** Exit status of the interpreter: 0 when the script runs to its end, 1
    when an exception reaches the top level. *)
Definition exit_code {A} (r : result A) : Z :=
  match r with
  | Ok _ => 0%Z
  | Raise _ => 1%Z
  end.

(** ** verify_demo.py *)

Module Demo.
Section Script.
Variable lib : library.

Definition expected : string := "assets/demo.mp4".
Definition success_line : string := "SUCCESS: Video source is correct.".
Definition failure_line : string := "FAILURE: Video source is incorrect.".
Definition screenshot_path : string := "verification/demo_page.png".

Definition file_path (wd : string) : string := "file://" ++ wd ++ "/docs/demo.html".

Definition run : M unit :=
  with_ (sync_playwright_enter lib) (sync_playwright_exit lib) (fun p =>
    browser <- launch lib p None ;;
    page <- new_page lib browser ;;
    wd <- getcwd ;;
    print ("Navigating to " ++ file_path wd) ;;
    goto lib page (file_path wd) ;;
    video_source <- get_attribute lib page "video source" "src" ;;
    print ("Video source: " ++ fmt video_source) ;;
    found <- py_in expected video_source ;;
    (if found then print success_line else print failure_line) ;;
    makedirs "verification" ;;
    screenshot lib page screenshot_path ;;
    print ("Screenshot saved to " ++ screenshot_path) ;;
    close lib browser).

(** [if __name__ == "__main__": run()] in a fresh process. *)
Definition main (wd : string) (ds fs : list string) : world * result unit :=
  run (boot wd ds fs).

End Script.
End Demo.

(** ** verification/verify_dashboard.py *)

Module Dashboard.
Section Script.
Variable lib : library.

Definition url : string := "http://localhost:3000/mobile".
Definition selector : string := ".t-pending".
Definition timeout : Z := 5000.
Definition timeout_line : string := "Timeout waiting for tips, taking screenshot anyway".
Definition screenshot_path : string := "verification/dashboard_mobile_after_fix.png".

Definition verify (page : page) : M unit :=
  goto lib page url ;;
  try_except (wait_for_selector lib page selector timeout)
             (fun _ => print timeout_line) ;;
  screenshot lib page screenshot_path.

(** The [__main__] block, in a fresh process. *)
Definition main (wd : string) (ds fs : list string) : world * result unit :=
  with_ (sync_playwright_enter lib) (sync_playwright_exit lib) (fun p =>
    browser <- launch lib p (Some true) ;;
    page <- new_page lib browser ;;
    try_finally (verify page) (close lib browser))
  (boot wd ds fs).

End Script.
End Dashboard.

(** ** Observations on a finished run *)

Definition is_close (c : call) : bool :=
  match c with Close => true | _ => false end.

Definition is_launch (c : call) : bool :=
  match c with Launch _ => true | _ => false end.

Definition is_exit (c : call) : bool :=
  match c with SyncPlaywrightExit => true | _ => false end.

Definition is_screenshot (c : call) : bool :=
  match c with Screenshot _ => true | _ => false end.

Definition is_makedirs (c : call) : bool :=
  match c with Makedirs _ => true | _ => false end.


Definition count (f : call -> bool) (w : world) : nat :=
  length (filter f (calls w)).




(** The URLs the run navigated to, in order. *)
Fixpoint goto_targets (cs : list call) : list string :=
  match cs with
  | [] => []
  | Goto u :: rest => u :: goto_targets rest
  | _ :: rest => goto_targets rest
  end.

(** The browser session opens: the Playwright context is entered, the
    browser launches with the given [headless] argument and a page is
    created. *)
Definition session_opens (lib : library) (headless : option bool) : Prop :=
  enter_outcome lib = None /\
  launch_outcome lib headless = None /\
  new_page_outcome lib = None.

(** The directories there are once [os.makedirs(name, exist_ok=True)] has
    returned. *)
Definition dirs_after_makedirs (name : string) (ds : list string) : list string :=
  if mem name ds then ds else name :: ds.

(** Every step of the dashboard script that is not inside its
    [try/except] succeeds. *)
Definition dashboard_steps_ok (lib : library) (ds : list string) : Prop :=
  session_opens lib (Some true) /\
  goto_outcome lib Dashboard.url = None /\
  screenshot_outcome lib Dashboard.screenshot_path ds = None /\
  close_outcome lib = None /\
  exit_outcome lib = None.

(** Every step of the demo script other than the attribute read and the
    comparison succeeds. *)
Definition demo_steps_ok (lib : library) (wd : string) (ds fs : list string) : Prop :=
  session_opens lib None /\
  goto_outcome lib (Demo.file_path wd) = None /\
  mem "verification" fs = false /\
  screenshot_outcome lib Demo.screenshot_path
    (dirs_after_makedirs "verification" ds) = None /\
  close_outcome lib = None /\
  exit_outcome lib = None.

(** *** Sample collaborators *)

(** Everything works; the source element carries [src]. *)
Definition lib_ok (src : option string) : library :=
  mkLibrary None None (fun _ => None) None (fun _ => None) (fun _ _ => None)
            (fun _ _ => Ok src) (fun _ _ => None) None.

(** Nothing answers at the target URL. *)
Definition lib_unreachable : library :=
  mkLibrary None None (fun _ => None) None
            (fun _ => Some (PlaywrightError "net::ERR_CONNECTION_REFUSED"))
            (fun _ _ => None) (fun _ _ => Ok (Some "assets/demo.mp4"))
            (fun _ _ => None) None.

(** The awaited selector never shows up. *)
Definition lib_no_tips : library :=
  mkLibrary None None (fun _ => None) None (fun _ => None)
            (fun _ _ => Some (PlaywrightTimeoutError "Timeout 5000ms exceeded."))
            (fun _ _ => Ok None) (fun _ _ => None) None.

(** The wait fails for a reason that is not a timeout. *)
Definition lib_page_crashed : library :=
  mkLibrary None None (fun _ => None) None (fun _ => None)
            (fun _ _ => Some (PlaywrightError "Page crashed"))
            (fun _ _ => Ok None) (fun _ _ => None) None.

(** The screenshot cannot be stored. *)
Definition lib_disk_full : library :=
  mkLibrary None None (fun _ => None) None (fun _ => None) (fun _ _ => None)
            (fun _ _ => Ok (Some "assets/demo.mp4"))
            (fun _ _ => Some (OSError "No space left on device")) None.

(** The browser creates no page. *)
Definition lib_no_page : library :=
  mkLibrary None None (fun _ => None) (Some (PlaywrightError "Target closed"))
            (fun _ => None) (fun _ _ => None) (fun _ _ => Ok None)
            (fun _ _ => None) None.

(** The browser does not start. *)
Definition lib_no_browser : library :=
  mkLibrary None None (fun _ => Some (PlaywrightError "Executable doesn't exist"))
            None (fun _ => None) (fun _ _ => None) (fun _ _ => Ok None)
            (fun _ _ => None) None.

(** The Playwright driver does not start. *)
Definition lib_no_driver : library :=
  mkLibrary (Some (PlaywrightError "Connection closed")) None (fun _ => None)
            None (fun _ => None) (fun _ _ => None) (fun _ _ => Ok None)
            (fun _ _ => None) None.

(** The page has no source element: the attribute read times out. *)
Definition lib_no_source : library :=
  mkLibrary None None (fun _ => None) None (fun _ => None) (fun _ _ => None)
            (fun _ _ => Raise (PlaywrightTimeoutError "Timeout 30000ms exceeded."))
            (fun _ _ => None) None.

(** Closing the browser fails, on a target that is unreachable too. *)
Definition lib_close_fails : library :=
  mkLibrary None None (fun _ => None) None
            (fun _ => Some (PlaywrightError "net::ERR_CONNECTION_REFUSED"))
            (fun _ _ => None) (fun _ _ => Ok None) (fun _ _ => None)
            (Some (PlaywrightError "Browser has been closed")).

(** Leaving the Playwright context fails. *)
Definition lib_exit_fails : library :=
  mkLibrary None (Some (PlaywrightError "Connection closed")) (fun _ => None)
            None (fun _ => None) (fun _ _ => None)
            (fun _ _ => Ok (Some "assets/demo.mp4")) (fun _ _ => None) None.

(** *** Shapes of a run *)

(** The same collaborator with another answer to the selector wait. *)
Definition with_wait (o : option exn) (lib : library) : library :=
  mkLibrary (enter_outcome lib) (exit_outcome lib) (launch_outcome lib)
            (new_page_outcome lib) (goto_outcome lib) (fun _ _ => o)
            (get_attribute_outcome lib) (screenshot_outcome lib)
            (close_outcome lib).

(** The same collaborator with another string in the [src] attribute. *)
Definition with_src (v : string) (lib : library) : library :=
  mkLibrary (enter_outcome lib) (exit_outcome lib) (launch_outcome lib)
            (new_page_outcome lib) (goto_outcome lib)
            (wait_for_selector_outcome lib) (fun _ _ => Ok (Some v))
            (screenshot_outcome lib) (close_outcome lib).

(** The line the demo script prints after its screenshot. *)
Definition saved_line : string := "Screenshot saved to " ++ Demo.screenshot_path.

(** The calls of a demo run in which nothing fails. *)
Definition demo_calls (wd : string) : list call :=
  [SyncPlaywrightEnter; Launch None; NewPage; Goto (Demo.file_path wd);
   GetAttribute "video source" "src"; Makedirs "verification";
   Screenshot Demo.screenshot_path; Close].

(** The call sequences a dashboard run can have. *)
Definition dashboard_traces : list (list call) :=
  [ [SyncPlaywrightEnter];
    [SyncPlaywrightEnter; Launch (Some true); SyncPlaywrightExit];
    [SyncPlaywrightEnter; Launch (Some true); NewPage; SyncPlaywrightExit];
    [SyncPlaywrightEnter; Launch (Some true); NewPage; Goto Dashboard.url;
     Close; SyncPlaywrightExit];
    [SyncPlaywrightEnter; Launch (Some true); NewPage; Goto Dashboard.url;
     WaitForSelector Dashboard.selector Dashboard.timeout;
     Screenshot Dashboard.screenshot_path; Close; SyncPlaywrightExit] ].

(** ** Facts about the string functions *)

Lemma starts_with_app (n post : string) : starts_with n (n ++ post) = true.
Proof.
  induction n as [|a n IH]; cbn [append starts_with]; [reflexivity|].
  now rewrite Ascii.eqb_refl, IH.
Qed.

Lemma contains_app (n pre post : string) : contains n (pre ++ n ++ post) = true.
Proof.
  induction pre as [|c pre IH]; cbn [append].
  - destruct (n ++ post) eqn:E; cbn [contains]; rewrite <- E, starts_with_app; reflexivity.
  - cbn [contains]. rewrite IH. apply orb_true_r.
Qed.

Lemma starts_with_split (n h : string) :
  starts_with n h = true -> exists post, h = n ++ post.
Proof.
  revert h; induction n as [|a n IH]; intros h H.
  - exists h; reflexivity.
  - destruct h as [|b h]; cbn in H; [discriminate|].
    apply andb_true_iff in H as [Hab Hn]. apply Ascii.eqb_eq in Hab; subst b.
    destruct (IH _ Hn) as [post ->]. exists post; reflexivity.
Qed.

Lemma contains_split (n h : string) :
  contains n h = true -> exists pre post, h = pre ++ n ++ post.
Proof.
  induction h as [|c h IH]; cbn [contains]; intros H.
  - rewrite orb_false_r in H. destruct (starts_with_split _ _ H) as [post E].
    exists EmptyString, post; exact E.
  - apply orb_true_iff in H as [H|H].
    + destruct (starts_with_split _ _ H) as [post E].
      exists EmptyString, post; exact E.
    + destruct (IH H) as (pre & post & ->).
      exists (String c pre), post; reflexivity.
Qed.

Lemma mem_true_In (x : string) (l : list string) : mem x l = true -> In x l.
Proof.
  unfold mem; intros H. apply existsb_exists in H as (y & Hy & E).
  apply String.eqb_eq in E; subst y; exact Hy.
Qed.

Lemma append_inj_l (p a b : string) : p ++ a = p ++ b -> a = b.
Proof.
  induction p as [|c p IH]; cbn [append]; intros H; [exact H|].
  injection H as H; auto.
Qed.

Lemma append_length (a b : string) : String.length (a ++ b) = String.length a + String.length b.
Proof.
  induction a as [|c a IH]; cbn [append String.length]; [reflexivity|].
  now rewrite IH.
Qed.

Lemma append_inj_r (s a b : string) : a ++ s = b ++ s -> a = b.
Proof.
  revert b; induction a as [|c a IH]; intros [|d b] H; cbn [append] in H.
  - reflexivity.
  - apply (f_equal String.length) in H. cbn in H. rewrite append_length in H. lia.
  - apply (f_equal String.length) in H. cbn in H. rewrite append_length in H. lia.
  - injection H as -> H. f_equal; auto.
Qed.

Lemma file_path_inj (wd1 wd2 : string) :
  Demo.file_path wd1 = Demo.file_path wd2 -> wd1 = wd2.
Proof.
  unfold Demo.file_path; intros H.
  apply append_inj_l in H. now apply append_inj_r in H.
Qed.

Lemma mem_head (x : string) (l : list string) : mem x (x :: l) = true.
Proof. unfold mem. cbn. now rewrite String.eqb_refl. Qed.

Lemma cons_not_self {A} (x : A) (l : list A) : l <> x :: l.
Proof.
  intros E. apply (f_equal (@List.length A)) in E. cbn in E. lia.
Qed.

Lemma dirname_demo : dirname Demo.screenshot_path = "verification".
Proof. reflexivity. Qed.

Lemma dirname_dashboard : dirname Dashboard.screenshot_path = "verification".
Proof. reflexivity. Qed.

(** ** Running the scripts symbolically *)

(** From here on strings, paths and membership tests stay folded while a
    script is run. *)
Arguments mem : simpl never.
Arguments append : simpl never.
Arguments contains : simpl never.
Arguments dirname : simpl never.

Ltac unfold_script :=
  unfold Demo.main, Demo.run, Dashboard.main, Dashboard.verify,
    with_, try_finally, try_except, bind, ret, raise,
    sync_playwright_enter, sync_playwright_exit, launch, new_page, goto,
    wait_for_selector, get_attribute, screenshot, close, makedirs, print,
    getcwd, py_in, answer, count, ensure_dir.

Ltac tidy :=
  cbn; rewrite ?dirname_demo, ?dirname_dashboard, ?mem_head; cbn.

(** Use an outcome the statement fixes, where the script consults it. *)
Ltac known :=
  match goal with
  | H : enter_outcome ?l = _ |- context [enter_outcome ?l] => rewrite H
  | H : launch_outcome ?l ?h = _ |- context [launch_outcome ?l ?h] => rewrite H
  | H : new_page_outcome ?l = _ |- context [new_page_outcome ?l] => rewrite H
  | H : goto_outcome ?l ?u = _ |- context [goto_outcome ?l ?u] => rewrite H
  | H : wait_for_selector_outcome ?l ?s ?t = _
    |- context [wait_for_selector_outcome ?l ?s ?t] => rewrite H
  | H : get_attribute_outcome ?l ?s ?n = _
    |- context [get_attribute_outcome ?l ?s ?n] => rewrite H
  | H : contains ?n ?s = _ |- context [contains ?n ?s] => rewrite H
  | H : mem ?x ?xs = _ |- context [mem ?x ?xs] => rewrite H
  | H : screenshot_outcome ?l ?p ?d = _
    |- context [screenshot_outcome ?l ?p ?d] => rewrite H
  | H : close_outcome ?l = _ |- context [close_outcome ?l] => rewrite H
  | H : exit_outcome ?l = _ |- context [exit_outcome ?l] => rewrite H
  end.

(** Split on the earliest outcome the statement leaves open. *)
Ltac open_case :=
  match goal with
  | |- context [enter_outcome ?l] => destruct (enter_outcome l) eqn:?
  | |- context [launch_outcome ?l ?h] => destruct (launch_outcome l h) eqn:?
  | |- context [new_page_outcome ?l] => destruct (new_page_outcome l) eqn:?
  | |- context [goto_outcome ?l ?u] => destruct (goto_outcome l u) eqn:?
  | |- context [wait_for_selector_outcome ?l ?s ?t] =>
      destruct (wait_for_selector_outcome l s t) eqn:?
  | |- context [get_attribute_outcome ?l ?s ?n] =>
      destruct (get_attribute_outcome l s n) as [[?|]|?] eqn:?
  | |- context [contains ?n ?s] => destruct (contains n s) eqn:?
  | |- context [mem ?x (files ?w)] => destruct (mem x (files w)) eqn:?
  | |- context [mem ?x ?xs] => destruct (mem x xs) eqn:?
  | |- context [screenshot_outcome ?l ?p ?d] =>
      destruct (screenshot_outcome l p d) eqn:?
  | |- context [close_outcome ?l] => destruct (close_outcome l) eqn:?
  | |- context [exit_outcome ?l] => destruct (exit_outcome l) eqn:?
  end.

Ltac run_known := unfold_script; tidy; repeat (known; tidy).
Ltac run_all := run_known; repeat (open_case; tidy; repeat (known; tidy)).

Ltac str_neq H := cbv in H; discriminate H.

(** ** The browser session and [browser.close()] *)

(** X1: the dashboard script wraps [verify] in [try/finally]: once the page
    exists, [browser.close()] is called exactly once, whatever navigation,
    the wait, the screenshot, the close itself or the context exit do. *)
Lemma dashboard_closes_once lib wd ds fs :
  session_opens lib (Some true) ->
  count is_close (fst (Dashboard.main lib wd ds fs)) = 1.
Proof.
  intros (He & Hl & Hp). run_all; reflexivity.
Qed.

(** X2: in the dashboard script [browser.new_page()] sits before the [try]:
    when it raises, the launched browser is not closed. *)
Lemma dashboard_new_page_failure_skips_close lib wd ds fs e :
  enter_outcome lib = None ->
  launch_outcome lib (Some true) = None ->
  new_page_outcome lib = Some e ->
  count is_launch (fst (Dashboard.main lib wd ds fs)) = 1 /\
  count is_close (fst (Dashboard.main lib wd ds fs)) = 0.
Proof.
  intros He Hl Hp. run_all; split; reflexivity.
Qed.

(** On the path where every step succeeds, the demo script closes the
    browser exactly once. *)
Lemma demo_closes_once_on_success lib wd ds fs s :
  get_attribute_outcome lib "video source" "src" = Ok (Some s) ->
  demo_steps_ok lib wd ds fs ->
  count is_close (fst (Demo.main lib wd ds fs)) = 1.
Proof.
  unfold demo_steps_ok, dirs_after_makedirs.
  intros Ha ((He & Hl & Hp) & Hg & Hm & Hs & Hc & Hx).
  run_known. destruct (contains Demo.expected s); cbn; repeat (known; cbn).
  all: destruct (mem "verification" ds) eqn:Hd; cbn; rewrite Hs; cbn;
    repeat (known; cbn); reflexivity.
Qed.



(** X24: the demo script has no [try/finally] of its own.  Whenever a
    browser was launched and an exception leaves [run] (and it is not
    raised by [browser.close()] or by the context exit themselves),
    [browser.close()] has not been called: on those paths the only release
    is the exit of the [with] block. *)
Theorem demo_exception_skips_close lib wd ds fs e :
  enter_outcome lib = None ->
  launch_outcome lib None = None ->
  close_outcome lib = None ->
  exit_outcome lib = None ->
  snd (Demo.main lib wd ds fs) = Raise e ->
  count is_launch (fst (Demo.main lib wd ds fs)) = 1 /\
  count is_close (fst (Demo.main lib wd ds fs)) = 0 /\
  count is_exit (fst (Demo.main lib wd ds fs)) = 1.
Proof.
  intros He Hl Hc Hx. run_all.
  all: intros H; try discriminate H; repeat split; reflexivity.
Qed.

Lemma demo_exception_skips_close_witness :
  snd (Demo.main lib_unreachable "/repo" [] []) =
    Raise (PlaywrightError "net::ERR_CONNECTION_REFUSED") /\
  count is_launch (fst (Demo.main lib_unreachable "/repo" [] [])) = 1 /\
  count is_close (fst (Demo.main lib_unreachable "/repo" [] [])) = 0 /\
  count is_exit (fst (Demo.main lib_unreachable "/repo" [] [])) = 1.
Proof.
  split; [reflexivity|].
  apply (demo_exception_skips_close lib_unreachable "/repo" [] []
           (PlaywrightError "net::ERR_CONNECTION_REFUSED")); reflexivity.
Defined.

(** ** The attribute check of the demo script *)

(** For a [src] that is a string, the demo script prints exactly one of
    the two verdict lines, chosen by the substring test. *)
Lemma demo_classifies_strings lib wd ds fs s :
  session_opens lib None ->
  goto_outcome lib (Demo.file_path wd) = None ->
  get_attribute_outcome lib "video source" "src" = Ok (Some s) ->
  (In Demo.success_line (stdout (fst (Demo.main lib wd ds fs))) <->
     contains Demo.expected s = true) /\
  (In Demo.failure_line (stdout (fst (Demo.main lib wd ds fs))) <->
     contains Demo.expected s = false).
Proof.
  intros (He & Hl & Hp) Hg Ha. run_all.
  all: split; (split; [intros H | intros H; try discriminate H]).
  all: try reflexivity.
  all: try (cbn; tauto).
  all: cbn in H; repeat (destruct H as [H|H]; [str_neq H|]); try contradiction.
Qed.

(** C2 (fails on [None]): when the source element has no [src] attribute,
    [get_attribute] returns [None], the comparison raises [TypeError], and
    neither verdict line is printed. *)
Theorem demo_missing_src_raises_type_error lib wd ds fs :
  session_opens lib None ->
  goto_outcome lib (Demo.file_path wd) = None ->
  get_attribute_outcome lib "video source" "src" = Ok None ->
  exit_outcome lib = None ->
  snd (Demo.main lib wd ds fs) =
    Raise (TypeError "argument of type 'NoneType' is not iterable") /\
  stdout (fst (Demo.main lib wd ds fs)) =
    ["Navigating to " ++ Demo.file_path wd; "Video source: None"] /\
  ~ In Demo.success_line (stdout (fst (Demo.main lib wd ds fs))) /\
  ~ In Demo.failure_line (stdout (fst (Demo.main lib wd ds fs))).
Proof.
  intros (He & Hl & Hp) Hg Ha Hx. run_known.
  repeat split; try reflexivity.
  all: intros H; cbn in H; repeat (destruct H as [H|H]; [str_neq H|]); contradiction.
Qed.

Lemma demo_missing_src_raises_type_error_witness :
  session_opens (lib_ok None) None /\
  snd (Demo.main (lib_ok None) "/repo" [] []) =
    Raise (TypeError "argument of type 'NoneType' is not iterable") /\
  stdout (fst (Demo.main (lib_ok None) "/repo" [] [])) =
    ["Navigating to " ++ Demo.file_path "/repo"; "Video source: None"] /\
  ~ In Demo.success_line (stdout (fst (Demo.main (lib_ok None) "/repo" [] []))) /\
  ~ In Demo.failure_line (stdout (fst (Demo.main (lib_ok None) "/repo" [] []))).
Proof.
  split; [repeat split; reflexivity|].
  apply (demo_missing_src_raises_type_error (lib_ok None) "/repo" [] []);
    repeat split; reflexivity.
Defined.

(** ** The screenshot *)

(** After a completed navigation the dashboard script always reaches the
    screenshot call, whatever the wait did; when that call returns, the
    file is there. *)
Lemma dashboard_screenshot_after_navigation lib wd ds fs :
  session_opens lib (Some true) ->
  goto_outcome lib Dashboard.url = None ->
  count is_screenshot (fst (Dashboard.main lib wd ds fs)) = 1 /\
  (screenshot_outcome lib Dashboard.screenshot_path ds = None ->
   In Dashboard.screenshot_path (files (fst (Dashboard.main lib wd ds fs)))).
Proof.
  intros (He & Hl & Hp) Hg. run_all.
  all: split; [reflexivity | intros H; try discriminate H; cbn; auto].
Qed.

(** X22: for a [src] that is a string, matching or not, the demo script creates
    the directory, reaches the screenshot call, and the file is there when
    the call returns. *)
Lemma demo_screenshot_for_string_src lib wd ds fs s :
  session_opens lib None ->
  goto_outcome lib (Demo.file_path wd) = None ->
  get_attribute_outcome lib "video source" "src" = Ok (Some s) ->
  mem "verification" fs = false ->
  count is_makedirs (fst (Demo.main lib wd ds fs)) = 1 /\
  count is_screenshot (fst (Demo.main lib wd ds fs)) = 1 /\
  In "verification" (dirs (fst (Demo.main lib wd ds fs))) /\
  (screenshot_outcome lib Demo.screenshot_path
     (dirs_after_makedirs "verification" ds) = None ->
   In Demo.screenshot_path (files (fst (Demo.main lib wd ds fs)))).
Proof.
  unfold dirs_after_makedirs.
  intros (He & Hl & Hp) Hg Ha Hm. run_all.
  all: repeat split; try reflexivity; try (cbn; auto using mem_true_In; fail).
  all: intros H; try discriminate H; cbn; auto.
Qed.

(** C3 (fails on verify_demo.py): with the session open and navigation
    completed, a source element without [src] stops the demo script before
    the screenshot step: no screenshot call is made, no directory is
    created and the files are unchanged. *)
Theorem demo_missing_src_no_screenshot lib wd ds fs :
  session_opens lib None ->
  goto_outcome lib (Demo.file_path wd) = None ->
  get_attribute_outcome lib "video source" "src" = Ok None ->
  count is_screenshot (fst (Demo.main lib wd ds fs)) = 0 /\
  files (fst (Demo.main lib wd ds fs)) = fs /\
  dirs (fst (Demo.main lib wd ds fs)) = ds /\
  exists e, snd (Demo.main lib wd ds fs) = Raise e.
Proof.
  intros (He & Hl & Hp) Hg Ha. run_all.
  all: repeat split; try reflexivity; eexists; reflexivity.
Qed.

Lemma demo_missing_src_no_screenshot_witness :
  session_opens (lib_ok None) None /\
  count is_screenshot (fst (Demo.main (lib_ok None) "/repo" [] [])) = 0 /\
  files (fst (Demo.main (lib_ok None) "/repo" [] [])) = [] /\
  dirs (fst (Demo.main (lib_ok None) "/repo" [] [])) = [] /\
  exists e, snd (Demo.main (lib_ok None) "/repo" [] []) = Raise e.
Proof.
  split; [repeat split; reflexivity|].
  apply (demo_missing_src_no_screenshot (lib_ok None) "/repo" [] []);
    repeat split; reflexivity.
Defined.

(** ** The selector wait of the dashboard script *)

(** C4: the selector ".t-pending" does not appear within 5000 ms, so the
    wait raises a timeout.  With the other steps working, the run ends
    without an exception, prints the timeout diagnostic and writes the
    screenshot. *)
Theorem dashboard_selector_timeout_completes lib wd ds fs msg :
  session_opens lib (Some true) ->
  goto_outcome lib "http://localhost:3000/mobile" = None ->
  wait_for_selector_outcome lib ".t-pending" 5000 =
    Some (PlaywrightTimeoutError msg) ->
  screenshot_outcome lib "verification/dashboard_mobile_after_fix.png" ds = None ->
  close_outcome lib = None ->
  exit_outcome lib = None ->
  snd (Dashboard.main lib wd ds fs) = Ok tt /\
  stdout (fst (Dashboard.main lib wd ds fs)) =
    ["Timeout waiting for tips, taking screenshot anyway"] /\
  count is_screenshot (fst (Dashboard.main lib wd ds fs)) = 1 /\
  files (fst (Dashboard.main lib wd ds fs)) =
    "verification/dashboard_mobile_after_fix.png" :: fs.
Proof.
  intros (He & Hl & Hp) Hg Hw Hs Hc Hx.
  change "http://localhost:3000/mobile" with Dashboard.url in Hg.
  change ".t-pending" with Dashboard.selector in Hw.
  change 5000%Z with Dashboard.timeout in Hw.
  change "verification/dashboard_mobile_after_fix.png"
    with Dashboard.screenshot_path in Hs.
  run_known. repeat split; reflexivity.
Qed.

Lemma dashboard_selector_timeout_completes_witness :
  wait_for_selector_outcome lib_no_tips ".t-pending" 5000 =
    Some (PlaywrightTimeoutError "Timeout 5000ms exceeded.") /\
  snd (Dashboard.main lib_no_tips "/repo" ["verification"] []) = Ok tt /\
  stdout (fst (Dashboard.main lib_no_tips "/repo" ["verification"] [])) =
    ["Timeout waiting for tips, taking screenshot anyway"] /\
  count is_screenshot (fst (Dashboard.main lib_no_tips "/repo" ["verification"] [])) = 1 /\
  files (fst (Dashboard.main lib_no_tips "/repo" ["verification"] [])) =
    ["verification/dashboard_mobile_after_fix.png"].
Proof.
  split; [reflexivity|].
  apply (dashboard_selector_timeout_completes lib_no_tips "/repo" ["verification"] []
           "Timeout 5000ms exceeded."); repeat split; reflexivity.
Defined.

(** C8: the [except] is bare.  Whatever exception the wait raises, the
    same diagnostic line is printed, nothing else is, and the next call
    made is the screenshot. *)
Theorem dashboard_bare_except_swallows_all lib wd ds fs e :
  session_opens lib (Some true) ->
  goto_outcome lib Dashboard.url = None ->
  wait_for_selector_outcome lib Dashboard.selector Dashboard.timeout = Some e ->
  stdout (fst (Dashboard.main lib wd ds fs)) = [Dashboard.timeout_line] /\
  exists rest,
    calls (fst (Dashboard.main lib wd ds fs)) =
      ([SyncPlaywrightEnter; Launch (Some true); NewPage; Goto Dashboard.url;
        WaitForSelector ".t-pending" 5000;
        Screenshot Dashboard.screenshot_path] ++ rest)%list.
Proof.
  intros (He & Hl & Hp) Hg Hw. run_all.
  all: split; [reflexivity | eexists; reflexivity].
Qed.

Lemma dashboard_bare_except_swallows_all_witness :
  wait_for_selector_outcome lib_page_crashed Dashboard.selector Dashboard.timeout =
    Some (PlaywrightError "Page crashed") /\
  stdout (fst (Dashboard.main lib_page_crashed "/repo" [] [])) =
    [Dashboard.timeout_line] /\
  exists rest,
    calls (fst (Dashboard.main lib_page_crashed "/repo" [] [])) =
      ([SyncPlaywrightEnter; Launch (Some true); NewPage; Goto Dashboard.url;
        WaitForSelector ".t-pending" 5000;
        Screenshot Dashboard.screenshot_path] ++ rest)%list.
Proof.
  split; [reflexivity|].
  apply (dashboard_bare_except_swallows_all lib_page_crashed "/repo" [] []
           (PlaywrightError "Page crashed")); repeat split; reflexivity.
Defined.

(** When the wait returns, nothing is printed by the dashboard script. *)
Lemma dashboard_silent_when_selector_appears lib wd ds fs :
  wait_for_selector_outcome lib Dashboard.selector Dashboard.timeout = None ->
  stdout (fst (Dashboard.main lib wd ds fs)) = [].
Proof.
  intros Hw. run_all; reflexivity.
Qed.

(** ** The containing directory of the screenshot *)




(** X23: the dashboard script never calls [os.makedirs]; the only
    directory a run can add is the containing directory of its screenshot,
    and it is added exactly when that directory was absent and the
    screenshot was written. *)
Theorem dashboard_never_calls_makedirs lib wd ds fs :
  count is_makedirs (fst (Dashboard.main lib wd ds fs)) = 0 /\
  (dirs (fst (Dashboard.main lib wd ds fs)) = ds \/
   dirs (fst (Dashboard.main lib wd ds fs)) = "verification" :: ds) /\
  (dirs (fst (Dashboard.main lib wd ds fs)) = "verification" :: ds <->
   mem "verification" ds = false /\
   files (fst (Dashboard.main lib wd ds fs)) = Dashboard.screenshot_path :: fs).
Proof.
  run_all.
  all: split; [reflexivity|]; split; [auto|].
  all: split; [intros H | intros [H1 H2]].
  all: try (exfalso; exact (cons_not_self _ _ H)).
  all: try (exfalso; exact (cons_not_self _ _ H2)).
  all: try discriminate; try (split; reflexivity); try reflexivity.
Qed.

(** A complete run of the demo script from an empty directory. *)
Lemma demo_creates_directory_example :
  Demo.main (lib_ok (Some "assets/demo.mp4")) "/repo" [] [] =
    (mkWorld "/repo" ["verification"] ["verification/demo_page.png"]
       ["Navigating to file:///repo/docs/demo.html";
        "Video source: assets/demo.mp4";
        "SUCCESS: Video source is correct.";
        "Screenshot saved to verification/demo_page.png"]
       [SyncPlaywrightEnter; Launch None; NewPage;
        Goto "file:///repo/docs/demo.html";
        GetAttribute "video source" "src"; Makedirs "verification";
        Screenshot "verification/demo_page.png"; Close; SyncPlaywrightExit],
     Ok tt).
Proof. reflexivity. Qed.

(** ** An unreachable target *)

(** X21: the dashboard script on an unreachable target: the navigation error
    reaches the caller, no screenshot is taken and the browser is closed
    once. *)
Lemma dashboard_unreachable_target lib wd ds fs e :
  session_opens lib (Some true) ->
  goto_outcome lib Dashboard.url = Some e ->
  close_outcome lib = None ->
  exit_outcome lib = None ->
  snd (Dashboard.main lib wd ds fs) = Raise e /\
  count is_screenshot (fst (Dashboard.main lib wd ds fs)) = 0 /\
  files (fst (Dashboard.main lib wd ds fs)) = fs /\
  count is_close (fst (Dashboard.main lib wd ds fs)) = 1.
Proof.
  intros (He & Hl & Hp) Hg Hc Hx. run_known. repeat split; reflexivity.
Qed.



(** ** Exit codes *)

(** C7, as stated, fails: with launch and navigation both working, a
    screenshot that cannot be stored ends the dashboard script with exit
    code 1. *)
Lemma exit_code_nonzero_without_launch_or_navigation_error :
  ~ (exit_code (snd (Dashboard.main lib_disk_full "/repo" ["verification"] [])) <> 0%Z ->
     enter_outcome lib_disk_full <> None \/
     launch_outcome lib_disk_full (Some true) <> None \/
     goto_outcome lib_disk_full Dashboard.url <> None).
Proof.
  intros H. destruct H as [H|[H|H]]; try (apply H; reflexivity).
  cbv. discriminate.
Qed.

(** C7, amended: the dashboard script exits with code 0 exactly when
    every step outside its [try/except] succeeds; with a [src] that is a
    string, matching or not, so does the demo script.  An error in any of
    these steps, launch and navigation among them, gives exit code 1, and
    so does an attribute read that raises. *)
Theorem exit_code_zero_iff_steps_ok lib wd ds fs :
  (exit_code (snd (Dashboard.main lib wd ds fs)) = 0%Z <->
     dashboard_steps_ok lib ds) /\
  (exit_code (snd (Dashboard.main lib wd ds fs)) = 1%Z <->
     ~ dashboard_steps_ok lib ds) /\
  (forall s,
     get_attribute_outcome lib "video source" "src" = Ok (Some s) ->
     (exit_code (snd (Demo.main lib wd ds fs)) = 0%Z <->
        demo_steps_ok lib wd ds fs) /\
     (exit_code (snd (Demo.main lib wd ds fs)) = 1%Z <->
        ~ demo_steps_ok lib wd ds fs)) /\
  (forall e,
     get_attribute_outcome lib "video source" "src" = Raise e ->
     exit_code (snd (Demo.main lib wd ds fs)) = 1%Z).
Proof.
  unfold dashboard_steps_ok, demo_steps_ok, session_opens, dirs_after_makedirs.
  split; [|split; [|split; [intros s Ha; split | intros e Ha]]].
  all: run_all.
  all: intuition (try discriminate; try congruence).
Qed.

Lemma exit_code_zero_iff_steps_ok_witness :
  get_attribute_outcome (lib_ok (Some "assets/wrong.mp4")) "video source" "src" =
    Ok (Some "assets/wrong.mp4") /\
  contains Demo.expected "assets/wrong.mp4" = false /\
  In Demo.failure_line
     (stdout (fst (Demo.main (lib_ok (Some "assets/wrong.mp4")) "/repo" [] []))) /\
  (exit_code (snd (Demo.main (lib_ok (Some "assets/wrong.mp4")) "/repo" [] [])) = 0%Z <->
     demo_steps_ok (lib_ok (Some "assets/wrong.mp4")) "/repo" [] []).
Proof.
  split; [reflexivity|]. split; [reflexivity|].
  split; [vm_compute; auto 10|].
  apply (proj1 (proj2 (proj2 (exit_code_zero_iff_steps_ok
                                (lib_ok (Some "assets/wrong.mp4")) "/repo" [] [])))
               "assets/wrong.mp4").
  reflexivity.
Defined.

(** ** The target of the demo script *)

(** C9: the demo script navigates to "file://" + cwd + "/docs/demo.html"
    and nowhere else, so runs started in different working directories
    navigate to different URLs. *)
Theorem demo_target_follows_cwd lib wd1 wd2 ds1 fs1 ds2 fs2 :
  session_opens lib None ->
  wd1 <> wd2 ->
  goto_targets (calls (fst (Demo.main lib wd1 ds1 fs1))) =
    ["file://" ++ wd1 ++ "/docs/demo.html"] /\
  goto_targets (calls (fst (Demo.main lib wd2 ds2 fs2))) =
    ["file://" ++ wd2 ++ "/docs/demo.html"] /\
  goto_targets (calls (fst (Demo.main lib wd1 ds1 fs1))) <>
    goto_targets (calls (fst (Demo.main lib wd2 ds2 fs2))).
Proof.
  intros (He & Hl & Hp) Hwd.
  assert (T : forall wd ds fs,
             goto_targets (calls (fst (Demo.main lib wd ds fs))) =
               [Demo.file_path wd]).
  { intros wd ds fs. run_all; reflexivity. }
  rewrite !T. repeat split; try reflexivity.
  intros E. apply Hwd, file_path_inj. congruence.
Qed.

Lemma demo_target_follows_cwd_witness :
  "/repo" <> "/tmp" /\
  goto_targets (calls (fst (Demo.main lib_unreachable "/repo" [] []))) =
    ["file:///repo/docs/demo.html"] /\
  goto_targets (calls (fst (Demo.main lib_unreachable "/tmp" [] []))) =
    ["file:///tmp/docs/demo.html"] /\
  goto_targets (calls (fst (Demo.main lib_unreachable "/repo" [] []))) <>
    goto_targets (calls (fst (Demo.main lib_unreachable "/tmp" [] []))).
Proof.
  split; [discriminate|].
  apply (demo_target_follows_cwd lib_unreachable "/repo" "/tmp" [] [] [] []).
  - repeat split; reflexivity.
  - discriminate.
Defined.

(** ** The substring test *)

(** C10: the verdict of the demo script is a substring test.  A [src]
    that has "assets/demo.mp4" anywhere inside it, the exact value or a
    longer one, is answered with the SUCCESS line and not with the FAILURE
    line; a [src] that does not have it inside is answered with the FAILURE
    line and not with the SUCCESS line. *)
Theorem demo_substring_success lib wd ds fs s :
  session_opens lib None ->
  goto_outcome lib (Demo.file_path wd) = None ->
  get_attribute_outcome lib "video source" "src" = Ok (Some s) ->
  ((exists pre post, s = pre ++ "assets/demo.mp4" ++ post) ->
   In "SUCCESS: Video source is correct."
      (stdout (fst (Demo.main lib wd ds fs))) /\
   ~ In "FAILURE: Video source is incorrect."
        (stdout (fst (Demo.main lib wd ds fs)))) /\
  (~ (exists pre post, s = pre ++ "assets/demo.mp4" ++ post) ->
   In "FAILURE: Video source is incorrect."
      (stdout (fst (Demo.main lib wd ds fs))) /\
   ~ In "SUCCESS: Video source is correct."
        (stdout (fst (Demo.main lib wd ds fs)))).
Proof.
  intros Hs Hg Ha.
  destruct (demo_classifies_strings lib wd ds fs _ Hs Hg Ha) as [Hok Hko].
  change "SUCCESS: Video source is correct." with Demo.success_line.
  change "FAILURE: Video source is incorrect." with Demo.failure_line.
  change "assets/demo.mp4" with Demo.expected.
  rewrite Hok, Hko. split.
  - intros (pre & post & ->). rewrite contains_app. split; [reflexivity | discriminate].
  - intros H. destruct (contains Demo.expected s) eqn:E.
    + exfalso. apply H. apply contains_split. exact E.
    + split; [reflexivity | discriminate].
Qed.

Lemma demo_substring_success_witness :
  ("other/assets/demo.mp4?v=2" <> "assets/demo.mp4" /\
   In "SUCCESS: Video source is correct."
      (stdout (fst (Demo.main (lib_ok (Some "other/assets/demo.mp4?v=2")) "/repo" [] []))) /\
   ~ In "FAILURE: Video source is incorrect."
        (stdout (fst (Demo.main (lib_ok (Some "other/assets/demo.mp4?v=2")) "/repo" [] [])))) /\
  (In "SUCCESS: Video source is correct."
      (stdout (fst (Demo.main (lib_ok (Some "assets/demo.mp4")) "/repo" [] []))) /\
   ~ In "FAILURE: Video source is incorrect."
        (stdout (fst (Demo.main (lib_ok (Some "assets/demo.mp4")) "/repo" [] [])))).
Proof.
  split.
  - split; [discriminate|].
    apply (proj1 (demo_substring_success (lib_ok (Some "other/assets/demo.mp4?v=2"))
                    "/repo" [] [] "other/assets/demo.mp4?v=2"
                    (conj eq_refl (conj eq_refl eq_refl)) eq_refl eq_refl)).
    exists "other/", "?v=2". reflexivity.
  - apply (proj1 (demo_substring_success (lib_ok (Some "assets/demo.mp4"))
                    "/repo" [] [] "assets/demo.mp4"
                    (conj eq_refl (conj eq_refl eq_refl)) eq_refl eq_refl)).
    exists "", "". reflexivity.
Defined.

(** The substring test is exact: [contains] answers [true] on the strings
    that have the needle inside and on no others. *)
Lemma contains_iff (n h : string) :
  contains n h = true <-> exists pre post, h = pre ++ n ++ post.
Proof.
  split.
  - apply contains_split.
  - intros (pre & post & ->). apply contains_app.
Qed.

(** ** Further properties: cleanup and error propagation *)

Lemma dashboard_closes_once_witness :
  session_opens lib_close_fails (Some true) /\
  count is_close (fst (Dashboard.main lib_close_fails "/repo" [] [])) = 1.
Proof.
  split; [repeat split; reflexivity|].
  apply (dashboard_closes_once lib_close_fails "/repo" [] []).
  repeat split; reflexivity.
Defined.

Lemma dashboard_new_page_failure_skips_close_witness :
  new_page_outcome lib_no_page = Some (PlaywrightError "Target closed") /\
  count is_launch (fst (Dashboard.main lib_no_page "/repo" [] [])) = 1 /\
  count is_close (fst (Dashboard.main lib_no_page "/repo" [] [])) = 0.
Proof.
  split; [reflexivity|].
  apply (dashboard_new_page_failure_skips_close lib_no_page "/repo" [] []
           (PlaywrightError "Target closed")); reflexivity.
Defined.

(** X3: once the Playwright context is entered, both scripts leave it
    exactly once on every path, and leaving it is the last call they
    make. *)
Theorem context_exit_runs_once lib wd ds fs :
  enter_outcome lib = None ->
  (count is_exit (fst (Demo.main lib wd ds fs)) = 1 /\
   last (calls (fst (Demo.main lib wd ds fs))) SyncPlaywrightEnter =
     SyncPlaywrightExit) /\
  (count is_exit (fst (Dashboard.main lib wd ds fs)) = 1 /\
   last (calls (fst (Dashboard.main lib wd ds fs))) SyncPlaywrightEnter =
     SyncPlaywrightExit).
Proof.
  intros He. split; run_all; split; reflexivity.
Qed.

Lemma context_exit_runs_once_witness :
  (count is_exit (fst (Demo.main lib_no_source "/repo" [] [])) = 1 /\
   last (calls (fst (Demo.main lib_no_source "/repo" [] []))) SyncPlaywrightEnter =
     SyncPlaywrightExit) /\
  (count is_exit (fst (Dashboard.main lib_no_source "/repo" [] [])) = 1 /\
   last (calls (fst (Dashboard.main lib_no_source "/repo" [] []))) SyncPlaywrightEnter =
     SyncPlaywrightExit).
Proof.
  apply (context_exit_runs_once lib_no_source "/repo" [] []). reflexivity.
Defined.

(** X4: when [sync_playwright()] cannot be entered, both scripts stop
    there: the error reaches the caller, no other call is made (the
    context is not exited either), nothing is printed and the directories
    and files are untouched. *)
Theorem enter_failure_stops_everything lib wd ds fs e :
  enter_outcome lib = Some e ->
  Demo.main lib wd ds fs =
    (mkWorld wd ds fs [] [SyncPlaywrightEnter], Raise e) /\
  Dashboard.main lib wd ds fs =
    (mkWorld wd ds fs [] [SyncPlaywrightEnter], Raise e).
Proof.
  intros He. split; run_known; reflexivity.
Qed.

Lemma enter_failure_stops_everything_witness :
  Demo.main lib_no_driver "/repo" [] [] =
    (mkWorld "/repo" [] [] [] [SyncPlaywrightEnter],
     Raise (PlaywrightError "Connection closed")) /\
  Dashboard.main lib_no_driver "/repo" [] [] =
    (mkWorld "/repo" [] [] [] [SyncPlaywrightEnter],
     Raise (PlaywrightError "Connection closed")).
Proof.
  apply (enter_failure_stops_everything lib_no_driver "/repo" [] []
           (PlaywrightError "Connection closed")). reflexivity.
Defined.

(** X5: when the browser does not launch, the launch error reaches the
    caller of either script; no page is opened, nothing is printed or
    written, no [browser.close()] is attempted and the context is left. *)
Theorem launch_failure_propagates lib wd ds fs e1 e2 :
  enter_outcome lib = None ->
  exit_outcome lib = None ->
  launch_outcome lib None = Some e1 ->
  launch_outcome lib (Some true) = Some e2 ->
  Demo.main lib wd ds fs =
    (mkWorld wd ds fs []
       [SyncPlaywrightEnter; Launch None; SyncPlaywrightExit], Raise e1) /\
  Dashboard.main lib wd ds fs =
    (mkWorld wd ds fs []
       [SyncPlaywrightEnter; Launch (Some true); SyncPlaywrightExit], Raise e2).
Proof.
  intros He Hx H1 H2. split; run_known; reflexivity.
Qed.

Lemma launch_failure_propagates_witness :
  Demo.main lib_no_browser "/repo" [] [] =
    (mkWorld "/repo" [] [] []
       [SyncPlaywrightEnter; Launch None; SyncPlaywrightExit],
     Raise (PlaywrightError "Executable doesn't exist")) /\
  Dashboard.main lib_no_browser "/repo" [] [] =
    (mkWorld "/repo" [] [] []
       [SyncPlaywrightEnter; Launch (Some true); SyncPlaywrightExit],
     Raise (PlaywrightError "Executable doesn't exist")).
Proof.
  apply (launch_failure_propagates lib_no_browser "/repo" [] []
           (PlaywrightError "Executable doesn't exist")
           (PlaywrightError "Executable doesn't exist")); reflexivity.
Defined.

(** X6: in the dashboard script an error of [browser.close()] in the
    [finally] block replaces the outcome of [verify]: whether [verify]
    returned or raised (navigation or screenshot error), the caller sees
    the error of the close. *)
Theorem dashboard_close_error_replaces_outcome lib wd ds fs e :
  session_opens lib (Some true) ->
  close_outcome lib = Some e ->
  exit_outcome lib = None ->
  snd (Dashboard.main lib wd ds fs) = Raise e.
Proof.
  intros (He & Hl & Hp) Hc Hx. run_all; reflexivity.
Qed.

Lemma dashboard_close_error_replaces_outcome_witness :
  goto_outcome lib_close_fails Dashboard.url =
    Some (PlaywrightError "net::ERR_CONNECTION_REFUSED") /\
  snd (Dashboard.main lib_close_fails "/repo" [] []) =
    Raise (PlaywrightError "Browser has been closed").
Proof.
  split; [reflexivity|].
  apply (dashboard_close_error_replaces_outcome lib_close_fails "/repo" [] []);
    repeat split; reflexivity.
Defined.

(** X7: an error raised on leaving the Playwright context is what the
    caller of either script sees, whatever happened inside the [with]
    block, a run without any other error included. *)
Theorem exit_error_replaces_outcome lib wd ds fs e :
  enter_outcome lib = None ->
  exit_outcome lib = Some e ->
  snd (Demo.main lib wd ds fs) = Raise e /\
  snd (Dashboard.main lib wd ds fs) = Raise e.
Proof.
  intros He Hx. split; run_all; reflexivity.
Qed.

Lemma exit_error_replaces_outcome_witness :
  snd (Demo.main lib_exit_fails "/repo" [] []) =
    Raise (PlaywrightError "Connection closed") /\
  snd (Dashboard.main lib_exit_fails "/repo" [] []) =
    Raise (PlaywrightError "Connection closed").
Proof.
  apply (exit_error_replaces_outcome lib_exit_fails "/repo" [] []); reflexivity.
Defined.

(** ** Further properties: the dashboard script as a whole *)

(** X8: the dashboard script prints the timeout line or nothing at all,
    and it prints the line exactly when the session opened, navigation
    completed and the wait raised. *)
Theorem dashboard_stdout_shape lib wd ds fs :
  (stdout (fst (Dashboard.main lib wd ds fs)) = [] \/
   stdout (fst (Dashboard.main lib wd ds fs)) = [Dashboard.timeout_line]) /\
  (stdout (fst (Dashboard.main lib wd ds fs)) = [Dashboard.timeout_line] <->
   session_opens lib (Some true) /\
   goto_outcome lib Dashboard.url = None /\
   wait_for_selector_outcome lib Dashboard.selector Dashboard.timeout <> None).
Proof.
  unfold session_opens. run_all.
  all: split; [auto|].
  all: split; [intros H; try discriminate H | intros ((H1 & H2 & H3) & H4 & H5)].
  all: try discriminate; try congruence.
  all: repeat split; discriminate.
Qed.

(** X9: what the selector wait answers changes nothing but the printed
    line: the outcome of the run (and so the exit code), the calls made and
    the files and directories are the same whether the wait returns or
    raises, and whatever it raises. *)
Theorem dashboard_wait_only_changes_output lib o1 o2 wd ds fs :
  snd (Dashboard.main (with_wait o1 lib) wd ds fs) =
    snd (Dashboard.main (with_wait o2 lib) wd ds fs) /\
  calls (fst (Dashboard.main (with_wait o1 lib) wd ds fs)) =
    calls (fst (Dashboard.main (with_wait o2 lib) wd ds fs)) /\
  files (fst (Dashboard.main (with_wait o1 lib) wd ds fs)) =
    files (fst (Dashboard.main (with_wait o2 lib) wd ds fs)) /\
  dirs (fst (Dashboard.main (with_wait o1 lib) wd ds fs)) =
    dirs (fst (Dashboard.main (with_wait o2 lib) wd ds fs)).
Proof.
  unfold with_wait. unfold_script. cbn.
  destruct (enter_outcome lib); cbn; [repeat split|].
  destruct (launch_outcome lib (Some true)); cbn;
    [destruct (exit_outcome lib); repeat split|].
  destruct (new_page_outcome lib); cbn;
    [destruct (exit_outcome lib); repeat split|].
  destruct (goto_outcome lib Dashboard.url); cbn;
    [destruct (close_outcome lib), (exit_outcome lib); repeat split|].
  destruct o1, o2; cbn.
  all: destruct (screenshot_outcome lib Dashboard.screenshot_path ds); cbn.
  all: destruct (close_outcome lib), (exit_outcome lib); repeat split.
Qed.

(** X10: when every step outside the [try/except] succeeds, the dashboard
    run is fully determined: it returns normally, has made its seven calls
    and the context exit in order, has added its screenshot to the files,
    has the containing directory of the screenshot (added by
    [page.screenshot] when it was absent), and has printed the timeout
    line exactly when the wait raised. *)
Theorem dashboard_complete_run lib wd ds fs :
  dashboard_steps_ok lib ds ->
  Dashboard.main lib wd ds fs =
    (mkWorld wd (if mem "verification" ds then ds else "verification" :: ds)
       (Dashboard.screenshot_path :: fs)
       (match wait_for_selector_outcome lib Dashboard.selector Dashboard.timeout with
        | None => []
        | Some _ => [Dashboard.timeout_line]
        end)
       [SyncPlaywrightEnter; Launch (Some true); NewPage; Goto Dashboard.url;
        WaitForSelector ".t-pending" 5000;
        Screenshot "verification/dashboard_mobile_after_fix.png"; Close;
        SyncPlaywrightExit],
     Ok tt).
Proof.
  intros ((He & Hl & Hp) & Hg & Hs & Hc & Hx). run_all; reflexivity.
Qed.

Lemma dashboard_complete_run_witness :
  dashboard_steps_ok lib_page_crashed [] /\
  Dashboard.main lib_page_crashed "/repo" [] [] =
    (mkWorld "/repo" ["verification"]
       ["verification/dashboard_mobile_after_fix.png"]
       ["Timeout waiting for tips, taking screenshot anyway"]
       [SyncPlaywrightEnter; Launch (Some true); NewPage; Goto Dashboard.url;
        WaitForSelector ".t-pending" 5000;
        Screenshot "verification/dashboard_mobile_after_fix.png"; Close;
        SyncPlaywrightExit],
     Ok tt).
Proof.
  split; [repeat split; reflexivity|].
  apply (dashboard_complete_run lib_page_crashed "/repo" [] []).
  repeat split; reflexivity.
Defined.

(** X11: a dashboard run makes one of five call sequences and no other.
    In particular a screenshot is only ever taken after a completed
    navigation and an attempted wait, and every sequence that contains
    [new_page] and a navigation ends with [browser.close()] and the
    context exit. *)
Theorem dashboard_call_sequences lib wd ds fs :
  In (calls (fst (Dashboard.main lib wd ds fs))) dashboard_traces.
Proof.
  unfold dashboard_traces. run_all; cbn; auto 10.
Qed.

(** X12: the only file a run of either script can add is its own
    screenshot, and it is added exactly when the screenshot call was made
    and returned; no file is ever removed. *)
Theorem files_shape lib wd ds fs :
  ((files (fst (Demo.main lib wd ds fs)) = fs \/
    files (fst (Demo.main lib wd ds fs)) = Demo.screenshot_path :: fs) /\
   (files (fst (Demo.main lib wd ds fs)) = Demo.screenshot_path :: fs <->
    count is_screenshot (fst (Demo.main lib wd ds fs)) = 1 /\
    screenshot_outcome lib Demo.screenshot_path
      (dirs_after_makedirs "verification" ds) = None)) /\
  ((files (fst (Dashboard.main lib wd ds fs)) = fs \/
    files (fst (Dashboard.main lib wd ds fs)) = Dashboard.screenshot_path :: fs) /\
   (files (fst (Dashboard.main lib wd ds fs)) = Dashboard.screenshot_path :: fs <->
    count is_screenshot (fst (Dashboard.main lib wd ds fs)) = 1 /\
    screenshot_outcome lib Dashboard.screenshot_path ds = None)).
Proof.
  unfold dirs_after_makedirs. split; run_all.
  all: split; [auto|].
  all: split; [intros H | intros [H1 H2]].
  all: try (exfalso; exact (cons_not_self _ _ H)).
  all: try discriminate; try (split; reflexivity); try reflexivity.
Qed.

(** ** Further properties: the demo script as a whole *)

(** X13: the demo script prints "Screenshot saved to
    verification/demo_page.png" exactly in the runs that added that file:
    the line is never printed for a screenshot that failed or was not
    reached, and never withheld for one that was written. *)
Theorem demo_saved_line_iff_file_written lib wd ds fs :
  In saved_line (stdout (fst (Demo.main lib wd ds fs))) <->
  files (fst (Demo.main lib wd ds fs)) = Demo.screenshot_path :: fs.
Proof.
  run_all.
  all: split; intros H.
  all: try reflexivity.
  all: try (exfalso; exact (cons_not_self _ _ H)).
  all: try (cbn; unfold saved_line; tauto).
  all: cbn in H; repeat (destruct H as [H|H]; [str_neq H|]); contradiction.
Qed.

(** X14: when the attribute read returns a string and every other step
    succeeds, the demo run is fully determined: it returns normally, has
    made its eight calls and the context exit in order, has printed four
    lines (target, value read, verdict by the substring test, screenshot
    path), has added the screenshot to the files, and has the directory. *)
Theorem demo_complete_run lib wd ds fs s :
  get_attribute_outcome lib "video source" "src" = Ok (Some s) ->
  demo_steps_ok lib wd ds fs ->
  Demo.main lib wd ds fs =
    (mkWorld wd (dirs_after_makedirs "verification" ds)
       (Demo.screenshot_path :: fs)
       ["Navigating to " ++ "file://" ++ wd ++ "/docs/demo.html";
        "Video source: " ++ s;
        if contains "assets/demo.mp4" s
        then "SUCCESS: Video source is correct."
        else "FAILURE: Video source is incorrect.";
        "Screenshot saved to verification/demo_page.png"]
       (demo_calls wd ++ [SyncPlaywrightExit])%list,
     Ok tt).
Proof.
  unfold demo_steps_ok, dirs_after_makedirs.
  intros Ha ((He & Hl & Hp) & Hg & Hm & Hs & Hc & Hx).
  change "assets/demo.mp4" with Demo.expected.
  run_known. destruct (contains Demo.expected s); cbn; repeat (known; cbn).
  all: destruct (mem "verification" ds) eqn:Hd; cbn; rewrite Hs; cbn;
    repeat (known; cbn); reflexivity.
Qed.

Lemma demo_complete_run_witness :
  demo_steps_ok (lib_ok (Some "assets/wrong.mp4")) "/repo" [] [] /\
  Demo.main (lib_ok (Some "assets/wrong.mp4")) "/repo" [] [] =
    (mkWorld "/repo" ["verification"] ["verification/demo_page.png"]
       ["Navigating to file:///repo/docs/demo.html";
        "Video source: assets/wrong.mp4";
        "FAILURE: Video source is incorrect.";
        "Screenshot saved to verification/demo_page.png"]
       (demo_calls "/repo" ++ [SyncPlaywrightExit])%list,
     Ok tt).
Proof.
  split; [repeat split; reflexivity|].
  apply (demo_complete_run (lib_ok (Some "assets/wrong.mp4")) "/repo" [] []
           "assets/wrong.mp4"); repeat split; reflexivity.
Defined.

(** X15: [os.makedirs("verification", exist_ok=True)] in the demo script
    leaves the directories as they are when the directory exists, adds it
    (once) only when neither a directory nor a file of that name exists,
    and creates or removes nothing else on any path. *)
Theorem demo_dirs_shape lib wd ds fs :
  (dirs (fst (Demo.main lib wd ds fs)) = ds \/
   dirs (fst (Demo.main lib wd ds fs)) = "verification" :: ds /\
   mem "verification" ds = false /\ mem "verification" fs = false) /\
  (mem "verification" ds = true -> dirs (fst (Demo.main lib wd ds fs)) = ds).
Proof.
  run_all.
  all: split; [auto | intros H; try discriminate H; reflexivity].
Qed.

(** X16: when a regular file named "verification" is in the way, the demo
    script stops at [os.makedirs]: the [OSError] reaches the caller after
    the verdict line has been printed, no screenshot call is made, and
    [browser.close()] is not reached. *)
Theorem demo_makedirs_blocked_by_file lib wd ds fs s :
  session_opens lib None ->
  goto_outcome lib (Demo.file_path wd) = None ->
  get_attribute_outcome lib "video source" "src" = Ok (Some s) ->
  mem "verification" fs = true ->
  exit_outcome lib = None ->
  snd (Demo.main lib wd ds fs) = Raise (OSError "File exists") /\
  count is_screenshot (fst (Demo.main lib wd ds fs)) = 0 /\
  count is_close (fst (Demo.main lib wd ds fs)) = 0 /\
  files (fst (Demo.main lib wd ds fs)) = fs /\
  dirs (fst (Demo.main lib wd ds fs)) = ds.
Proof.
  intros (He & Hl & Hp) Hg Ha Hm Hx. run_all; repeat split; reflexivity.
Qed.

Lemma demo_makedirs_blocked_by_file_witness :
  mem "verification" ["verification"] = true /\
  snd (Demo.main (lib_ok (Some "assets/demo.mp4")) "/repo" [] ["verification"]) =
    Raise (OSError "File exists") /\
  count is_screenshot
    (fst (Demo.main (lib_ok (Some "assets/demo.mp4")) "/repo" [] ["verification"])) = 0 /\
  count is_close
    (fst (Demo.main (lib_ok (Some "assets/demo.mp4")) "/repo" [] ["verification"])) = 0 /\
  files (fst (Demo.main (lib_ok (Some "assets/demo.mp4")) "/repo" [] ["verification"])) =
    ["verification"] /\
  dirs (fst (Demo.main (lib_ok (Some "assets/demo.mp4")) "/repo" [] ["verification"])) = [].
Proof.
  split; [reflexivity|].
  apply (demo_makedirs_blocked_by_file (lib_ok (Some "assets/demo.mp4")) "/repo" []
           ["verification"] "assets/demo.mp4"); repeat split; reflexivity.
Defined.

(** X17: for a [src] that is a string the verdict is decided by substring
    and by nothing else: the SUCCESS line is printed exactly when the value
    is some text, then "assets/demo.mp4", then some text, and the FAILURE
    line exactly when it is not of that form. *)
Theorem demo_verdict_characterised lib wd ds fs s :
  session_opens lib None ->
  goto_outcome lib (Demo.file_path wd) = None ->
  get_attribute_outcome lib "video source" "src" = Ok (Some s) ->
  (In "SUCCESS: Video source is correct." (stdout (fst (Demo.main lib wd ds fs))) <->
     exists pre post, s = pre ++ "assets/demo.mp4" ++ post) /\
  (In "FAILURE: Video source is incorrect." (stdout (fst (Demo.main lib wd ds fs))) <->
     ~ exists pre post, s = pre ++ "assets/demo.mp4" ++ post).
Proof.
  intros Hs Hg Ha.
  destruct (demo_classifies_strings lib wd ds fs s Hs Hg Ha) as [Hok Hko].
  change "SUCCESS: Video source is correct." with Demo.success_line.
  change "FAILURE: Video source is incorrect." with Demo.failure_line.
  change "assets/demo.mp4" with Demo.expected.
  rewrite Hok, Hko. split.
  - split; [apply contains_split|].
    intros (pre & post & ->). apply contains_app.
  - split.
    + intros H (pre & post & ->). rewrite contains_app in H. discriminate H.
    + intros H. destruct (contains Demo.expected s) eqn:E; [|reflexivity].
      exfalso. apply H. apply contains_split. exact E.
Qed.

Lemma demo_verdict_characterised_witness :
  (In "SUCCESS: Video source is correct."
      (stdout (fst (Demo.main (lib_ok (Some "assets/wrong.mp4")) "/repo" [] []))) <->
     exists pre post, "assets/wrong.mp4" = pre ++ "assets/demo.mp4" ++ post) /\
  (In "FAILURE: Video source is incorrect."
      (stdout (fst (Demo.main (lib_ok (Some "assets/wrong.mp4")) "/repo" [] []))) <->
     ~ exists pre post, "assets/wrong.mp4" = pre ++ "assets/demo.mp4" ++ post).
Proof.
  apply (demo_verdict_characterised (lib_ok (Some "assets/wrong.mp4")) "/repo" [] []
           "assets/wrong.mp4"); repeat split; reflexivity.
Defined.

(** X18: when the attribute read itself raises (no source element within
    the library's timeout, say), the demo script passes the error to its
    caller unchanged: only the target line has been printed, no verdict is
    given, no directory or screenshot is made and [browser.close()] is not
    reached. *)
Theorem demo_attribute_read_error_propagates lib wd ds fs e :
  session_opens lib None ->
  goto_outcome lib (Demo.file_path wd) = None ->
  get_attribute_outcome lib "video source" "src" = Raise e ->
  exit_outcome lib = None ->
  Demo.main lib wd ds fs =
    (mkWorld wd ds fs ["Navigating to " ++ Demo.file_path wd]
       [SyncPlaywrightEnter; Launch None; NewPage; Goto (Demo.file_path wd);
        GetAttribute "video source" "src"; SyncPlaywrightExit],
     Raise e).
Proof.
  intros (He & Hl & Hp) Hg Ha Hx. run_known. reflexivity.
Qed.

Lemma demo_attribute_read_error_propagates_witness :
  get_attribute_outcome lib_no_source "video source" "src" =
    Raise (PlaywrightTimeoutError "Timeout 30000ms exceeded.") /\
  Demo.main lib_no_source "/repo" [] [] =
    (mkWorld "/repo" [] [] ["Navigating to " ++ Demo.file_path "/repo"]
       [SyncPlaywrightEnter; Launch None; NewPage; Goto (Demo.file_path "/repo");
        GetAttribute "video source" "src"; SyncPlaywrightExit],
     Raise (PlaywrightTimeoutError "Timeout 30000ms exceeded.")).
Proof.
  split; [reflexivity|].
  apply (demo_attribute_read_error_propagates lib_no_source "/repo" [] []
           (PlaywrightTimeoutError "Timeout 30000ms exceeded."));
    repeat split; reflexivity.
Defined.

Ltac pick_prefix :=
  first [ exists 2; split; [lia | reflexivity]
        | exists 3; split; [lia | reflexivity]
        | exists 4; split; [lia | reflexivity]
        | exists 5; split; [lia | reflexivity]
        | exists 6; split; [lia | reflexivity]
        | exists 7; split; [lia | reflexivity]
        | exists 8; split; [lia | reflexivity] ].

(** X19: the demo script always makes its calls in the same order: once
    the context is entered, the calls of any run are an initial part of
    enter, launch, new_page, goto, get_attribute, makedirs, screenshot,
    close, followed by the context exit.  A failure only cuts the sequence
    short; no step is skipped or reordered, and a run that returns normally
    has made them all. *)
Theorem demo_call_order lib wd ds fs :
  enter_outcome lib = None ->
  (exists n, 2 <= n <= 8 /\
     calls (fst (Demo.main lib wd ds fs)) =
       (firstn n (demo_calls wd) ++ [SyncPlaywrightExit])%list) /\
  (snd (Demo.main lib wd ds fs) = Ok tt ->
   calls (fst (Demo.main lib wd ds fs)) =
     (demo_calls wd ++ [SyncPlaywrightExit])%list).
Proof.
  intros He. unfold demo_calls. run_all.
  all: split; [pick_prefix | intros H; try discriminate H; reflexivity].
Qed.

Lemma demo_call_order_witness :
  (exists n, 2 <= n <= 8 /\
     calls (fst (Demo.main lib_unreachable "/repo" [] [])) =
       (firstn n (demo_calls "/repo") ++ [SyncPlaywrightExit])%list) /\
  (snd (Demo.main lib_unreachable "/repo" [] []) = Ok tt ->
   calls (fst (Demo.main lib_unreachable "/repo" [] [])) =
     (demo_calls "/repo" ++ [SyncPlaywrightExit])%list).
Proof.
  apply (demo_call_order lib_unreachable "/repo" [] []). reflexivity.
Defined.

(** X20: which string the [src] attribute holds changes nothing but the
    two printed lines that show it: the outcome of the run (and so the exit
    code), the calls made, the files and the directories are the same for
    a matching and a non-matching value. *)
Theorem demo_verdict_only_changes_output lib v1 v2 wd ds fs :
  snd (Demo.main (with_src v1 lib) wd ds fs) =
    snd (Demo.main (with_src v2 lib) wd ds fs) /\
  calls (fst (Demo.main (with_src v1 lib) wd ds fs)) =
    calls (fst (Demo.main (with_src v2 lib) wd ds fs)) /\
  files (fst (Demo.main (with_src v1 lib) wd ds fs)) =
    files (fst (Demo.main (with_src v2 lib) wd ds fs)) /\
  dirs (fst (Demo.main (with_src v1 lib) wd ds fs)) =
    dirs (fst (Demo.main (with_src v2 lib) wd ds fs)).
Proof.
  unfold with_src. unfold_script. cbn.
  destruct (enter_outcome lib); cbn; [repeat split|].
  destruct (launch_outcome lib None); cbn;
    [destruct (exit_outcome lib); repeat split|].
  destruct (new_page_outcome lib); cbn;
    [destruct (exit_outcome lib); repeat split|].
  destruct (goto_outcome lib (Demo.file_path wd)); cbn;
    [destruct (exit_outcome lib); repeat split|].
  destruct (contains Demo.expected v1), (contains Demo.expected v2); cbn.
  all: destruct (mem "verification" fs); cbn;
    [destruct (exit_outcome lib); repeat split|].
  all: destruct (mem "verification" ds); cbn.
  all: match goal with
       | |- context [screenshot_outcome ?l ?p ?d] =>
           destruct (screenshot_outcome l p d); cbn
       end.
  all: destruct (close_outcome lib), (exit_outcome lib); repeat split.
Qed.

(** ** Witnesses for the lemmas on the screenshot and the unreachable target *)

Lemma dashboard_unreachable_target_witness :
  goto_outcome lib_unreachable Dashboard.url =
    Some (PlaywrightError "net::ERR_CONNECTION_REFUSED") /\
  snd (Dashboard.main lib_unreachable "/repo" [] []) =
    Raise (PlaywrightError "net::ERR_CONNECTION_REFUSED") /\
  count is_screenshot (fst (Dashboard.main lib_unreachable "/repo" [] [])) = 0 /\
  files (fst (Dashboard.main lib_unreachable "/repo" [] [])) = [] /\
  count is_close (fst (Dashboard.main lib_unreachable "/repo" [] [])) = 1.
Proof.
  split; [reflexivity|].
  apply (dashboard_unreachable_target lib_unreachable "/repo" [] []
           (PlaywrightError "net::ERR_CONNECTION_REFUSED"));
    repeat split; reflexivity.
Defined.

Lemma demo_screenshot_for_string_src_witness :
  count is_makedirs
    (fst (Demo.main (lib_ok (Some "assets/wrong.mp4")) "/repo" [] [])) = 1 /\
  count is_screenshot (fst (Demo.main (lib_ok (Some "assets/wrong.mp4")) "/repo" [] [])) = 1 /\
  In "verification" (dirs (fst (Demo.main (lib_ok (Some "assets/wrong.mp4")) "/repo" [] []))) /\
  (screenshot_outcome (lib_ok (Some "assets/wrong.mp4")) Demo.screenshot_path
     (dirs_after_makedirs "verification" []) = None ->
   In Demo.screenshot_path (files (fst (Demo.main (lib_ok (Some "assets/wrong.mp4")) "/repo" [] [])))).
Proof.
  apply (demo_screenshot_for_string_src (lib_ok (Some "assets/wrong.mp4")) "/repo" [] []
           "assets/wrong.mp4"); repeat split; reflexivity.
Defined.
